(** * A shallow embedding of [assets/modal.js] (the [ModalManager] class and
    its global API object [window.ModalManager]).

    The page environment is modelled as follows.
    - [sessionStorage] and [localStorage] are ordered association lists of
      string keys and string values ([store]); [key(i)] is the i-th key.
    - The [modals] [Map] is an association list from modal id to [config];
      JS mutates the config object in place, here the entry is replaced.
    - JS numbers that the code stores are integers (milliseconds, week
      numbers); they are modelled as [Z], [NaN] as [None].
    - The clock and the viewport are an [env]: [Date.now()], the time of
      [new Date(now.getFullYear(), 0, 1)], [new Date().toDateString()] and
      [window.innerWidth].
    - DOM side effects that no state of the manager reads (classes, focus,
      aria attributes, analytics, debug logging) are not modelled; the body
      [overflow] style and the dispatched custom events are. *)

From Stdlib Require Import ZArith List String Ascii Bool Lia.
From Stdlib Require Import DecimalZ.
Import ListNotations.
Open Scope Z_scope.
Open Scope string_scope.

(** ** JS numbers as strings: [Number.prototype.toString] and [parseInt] *)

Fixpoint uint_to_string (u : Decimal.uint) : string :=
  match u with
  | Decimal.Nil => EmptyString
  | Decimal.D0 u => String "0" (uint_to_string u)
  | Decimal.D1 u => String "1" (uint_to_string u)
  | Decimal.D2 u => String "2" (uint_to_string u)
  | Decimal.D3 u => String "3" (uint_to_string u)
  | Decimal.D4 u => String "4" (uint_to_string u)
  | Decimal.D5 u => String "5" (uint_to_string u)
  | Decimal.D6 u => String "6" (uint_to_string u)
  | Decimal.D7 u => String "7" (uint_to_string u)
  | Decimal.D8 u => String "8" (uint_to_string u)
  | Decimal.D9 u => String "9" (uint_to_string u)
  end.

(** [n.toString()] for an integral number [n]. *)
Definition number_to_string (z : Z) : string :=
  match Z.to_int z with
  | Decimal.Pos u => uint_to_string u
  | Decimal.Neg u => String "-" (uint_to_string u)
  end.

(** The longest prefix of decimal digits. *)
Fixpoint dec_prefix (s : string) : Decimal.uint :=
  match s with
  | String "0" r => Decimal.D0 (dec_prefix r)
  | String "1" r => Decimal.D1 (dec_prefix r)
  | String "2" r => Decimal.D2 (dec_prefix r)
  | String "3" r => Decimal.D3 (dec_prefix r)
  | String "4" r => Decimal.D4 (dec_prefix r)
  | String "5" r => Decimal.D5 (dec_prefix r)
  | String "6" r => Decimal.D6 (dec_prefix r)
  | String "7" r => Decimal.D7 (dec_prefix r)
  | String "8" r => Decimal.D8 (dec_prefix r)
  | String "9" r => Decimal.D9 (dec_prefix r)
  | _ => Decimal.Nil
  end.

(** The longest prefix of hexadecimal digits. *)
Fixpoint hex_prefix (s : string) : Hexadecimal.uint :=
  match s with
  | String "0" r => Hexadecimal.D0 (hex_prefix r)
  | String "1" r => Hexadecimal.D1 (hex_prefix r)
  | String "2" r => Hexadecimal.D2 (hex_prefix r)
  | String "3" r => Hexadecimal.D3 (hex_prefix r)
  | String "4" r => Hexadecimal.D4 (hex_prefix r)
  | String "5" r => Hexadecimal.D5 (hex_prefix r)
  | String "6" r => Hexadecimal.D6 (hex_prefix r)
  | String "7" r => Hexadecimal.D7 (hex_prefix r)
  | String "8" r => Hexadecimal.D8 (hex_prefix r)
  | String "9" r => Hexadecimal.D9 (hex_prefix r)
  | String ("a" | "A") r => Hexadecimal.Da (hex_prefix r)
  | String ("b" | "B") r => Hexadecimal.Db (hex_prefix r)
  | String ("c" | "C") r => Hexadecimal.Dc (hex_prefix r)
  | String ("d" | "D") r => Hexadecimal.Dd (hex_prefix r)
  | String ("e" | "E") r => Hexadecimal.De (hex_prefix r)
  | String ("f" | "F") r => Hexadecimal.Df (hex_prefix r)
  | _ => Hexadecimal.Nil
  end.

Definition is_js_space (c : ascii) : bool :=
  match nat_of_ascii c with
  | 9%nat | 10%nat | 11%nat | 12%nat | 13%nat | 32%nat => true
  | _ => false
  end.

Fixpoint trim_start (s : string) : string :=
  match s with
  | String c r => if is_js_space c then trim_start r else s
  | EmptyString => EmptyString
  end.

(** [parseInt(s)] with the default radix: leading white space, an optional
    sign, a [0x] prefix for hexadecimal, then the longest digit prefix;
    [None] stands for [NaN] (no digit at all). *)
Definition parseInt_unsigned (s : string) : option Z :=
  match s with
  | String "0" (String ("x" | "X") r) =>
      match hex_prefix r with
      | Hexadecimal.Nil => None
      | h => Some (Z.of_hex_uint h)
      end
  | _ =>
      match dec_prefix s with
      | Decimal.Nil => None
      | u => Some (Z.of_uint u)
      end
  end.

Definition parseInt (s : string) : option Z :=
  match trim_start s with
  | String "-" r => option_map Z.opp (parseInt_unsigned r)
  | String "+" r => parseInt_unsigned r
  | t => parseInt_unsigned t
  end.

(** [parseInt(null)] is [parseInt("null")], that is [NaN]. *)
Definition parseInt_item (v : option string) : option Z :=
  match v with
  | Some s => parseInt s
  | None => None
  end.

(** [x || 0] on the result of [parseInt]: [NaN] and [0] give [0]. *)
Definition or0 (n : option Z) : Z :=
  match n with
  | Some z => z
  | None => 0
  end.

(** JS truthiness of the result of [getItem]: [null] and [""] are falsy. *)
Definition truthy (v : option string) : bool :=
  match v with
  | Some EmptyString | None => false
  | Some _ => true
  end.

(** ** Web storage ([sessionStorage], [localStorage]) *)

Definition store := list (string * string).

Fixpoint getItem (s : store) (k : string) : option string :=
  match s with
  | [] => None
  | (k', v) :: r => if String.eqb k k' then Some v else getItem r k
  end.

Fixpoint setItem (s : store) (k v : string) : store :=
  match s with
  | [] => [(k, v)]
  | (k', v') :: r =>
      if String.eqb k k' then (k, v) :: r else (k', v') :: setItem r k v
  end.

Definition removeItem (s : store) (k : string) : store :=
  filter (fun kv => negb (String.eqb k (fst kv))) s.

Definition key (s : store) (i : nat) : option string :=
  nth_error (map fst s) i.

(** ** The manager's state *)

(** The object built by [parseModalConfig] (without its [element]; the
    element's [data-modal-id] is the key under which it is registered). *)
Record config := mkConfig {
  triggerType : string;
  triggerValue : string;
  frequency : string;
  delay : Z;
  mobileEnabled : bool;
  desktopEnabled : bool;
  closeOnOutsideClick : bool;
  autoCloseAfter : Z;
  devMode : bool;
  isShown : bool;
  lastShown : option Z
}.

Definition with_shown (c : config) (b : bool) (ls : option Z) : config :=
  mkConfig (triggerType c) (triggerValue c) (frequency c) (delay c)
    (mobileEnabled c) (desktopEnabled c) (closeOnOutsideClick c)
    (autoCloseAfter c) (devMode c) b ls.

(** Callbacks passed to [setTimeout] that change the manager's state. *)
Inductive timer_action :=
| TriggerModal (modalId : string)   (* time and page-load triggers *)
| AutoClose (modalId : string).     (* [if (config.isShown) closeModal] *)

Record env := mkEnv {
  now_ms : Z;          (* Date.now() *)
  year_start_ms : Z;   (* new Date(now.getFullYear(), 0, 1) *)
  date_string : string; (* new Date().toDateString() *)
  innerWidth : Z       (* window.innerWidth *)
}.

Record state := mkState {
  modals : list (string * config);
  session : store;
  local : store;
  body_overflow : string;               (* document.body.style.overflow *)
  events : list (string * string);      (* dispatched (eventName, modalId) *)
  timers : list (Z * timer_action)      (* pending setTimeout callbacks *)
}.

Fixpoint map_get (m : list (string * config)) (k : string) : option config :=
  match m with
  | [] => None
  | (k', v) :: r => if String.eqb k k' then Some v else map_get r k
  end.

Fixpoint map_set (m : list (string * config)) (k : string) (v : config)
  : list (string * config) :=
  match m with
  | [] => [(k, v)]
  | (k', v') :: r =>
      if String.eqb k k' then (k, v) :: r else (k', v') :: map_set r k v
  end.

Definition set_modals st m :=
  mkState m (session st) (local st) (body_overflow st) (events st) (timers st).
Definition set_session st s :=
  mkState (modals st) s (local st) (body_overflow st) (events st) (timers st).
Definition set_local st l :=
  mkState (modals st) (session st) l (body_overflow st) (events st) (timers st).
Definition set_overflow st o :=
  mkState (modals st) (session st) (local st) o (events st) (timers st).
Definition set_timers st ts :=
  mkState (modals st) (session st) (local st) (body_overflow st) (events st) ts.

Definition dispatchModalEvent (st : state) (eventName modalId : string) : state :=
  mkState (modals st) (session st) (local st) (body_overflow st)
    (events st ++ [(eventName, modalId)]) (timers st).

(** [setTimeout(f, d)]: a [NaN] or negative delay counts as 0. *)
Definition setTimeout (st : state) (e : env) (d : option Z) (a : timer_action)
  : state :=
  let d' := match d with Some n => Z.max 0 n | None => 0 end in
  set_timers st (timers st ++ [(now_ms e + d', a)]).

Definition storage_prefix : string := "modal_".

(** ** [getWeekNumber] *)

Definition week_ms : Z := 7 * 24 * 60 * 60 * 1000.

(** [Math.ceil(diff / week_ms)]; [diff] is an integral number of
    milliseconds, so the ceiling of the exact quotient is taken. *)
Definition getWeekNumber (e : env) : Z :=
  let diff := now_ms e - year_start_ms e in
  - ((- diff) / week_ms).

(** ** [canShowModal] *)

Definition frequency_check (st : state) (e : env) (modalId frequency : string)
  : bool :=
  let k := storage_prefix ++ modalId in
  if String.eqb frequency "always" then true
  else if String.eqb frequency "once-per-session" then
    negb (truthy (getItem (session st) (k ++ "_session")))
  else if String.eqb frequency "once-per-day" then
    match getItem (local st) (k ++ "_day") with
    | Some lastDay => negb (String.eqb lastDay (date_string e))
    | None => true
    end
  else if String.eqb frequency "once-per-week" then
    let lastWeek := or0 (parseInt_item (getItem (local st) (k ++ "_week"))) in
    negb (Z.eqb lastWeek (getWeekNumber e))
  else true.

Definition canShowModal (st : state) (e : env) (modalId frequency : string)
  : bool :=
  match map_get (modals st) modalId with
  | Some c => if devMode c then true else frequency_check st e modalId frequency
  | None => frequency_check st e modalId frequency
  end.

(** ** [trackModalDisplay] *)

Definition track_write (st : state) (e : env) (modalId frequency : string)
  : state :=
  let k := storage_prefix ++ modalId in
  if String.eqb frequency "once-per-session" then
    set_session st (setItem (session st) (k ++ "_session")
                      (number_to_string (now_ms e)))
  else if String.eqb frequency "once-per-day" then
    set_local st (setItem (local st) (k ++ "_day") (date_string e))
  else if String.eqb frequency "once-per-week" then
    set_local st (setItem (local st) (k ++ "_week")
                    (number_to_string (getWeekNumber e)))
  else st.

Definition trackModalDisplay (st : state) (e : env) (modalId frequency : string)
  : state :=
  match map_get (modals st) modalId with
  | Some c => if devMode c then st else track_write st e modalId frequency
  | None => track_write st e modalId frequency
  end.

(** ** Lifecycle: [showModal], [closeModal], [forceClose], [triggerModal] *)

Definition showModal (st : state) (e : env) (modalId : string) : state :=
  match map_get (modals st) modalId with
  | None => st
  | Some c =>
      let st1 := set_modals st
                   (map_set (modals st) modalId
                      (with_shown c true (Some (now_ms e)))) in
      let st2 := trackModalDisplay st1 e modalId (frequency c) in
      let st3 := set_overflow st2 "hidden" in
      dispatchModalEvent st3 "modal:shown" modalId
  end.

(** The 300 ms timer that sets [display: none] only touches the element. *)
Definition closeModal (st : state) (modalId : string) : state :=
  match map_get (modals st) modalId with
  | None => st
  | Some c =>
      if negb (isShown c) then st
      else if devMode c then st
      else
        let st1 := set_modals st
                     (map_set (modals st) modalId
                        (with_shown c false (lastShown c))) in
        dispatchModalEvent (set_overflow st1 "") "modal:closed" modalId
  end.

(** [window.ModalManager.forceClose]. *)
Definition forceClose (st : state) (modalId : string) : state :=
  match map_get (modals st) modalId with
  | None => st
  | Some c =>
      if negb (isShown c) then st
      else
        let st1 := set_modals st
                     (map_set (modals st) modalId
                        (with_shown c false (lastShown c))) in
        dispatchModalEvent (set_overflow st1 "") "modal:closed" modalId
  end.

(** Public API [show] and [hide]. *)
Definition show (st : state) (e : env) (modalId : string) : state :=
  showModal st e modalId.

Definition hide (st : state) (modalId : string) : state :=
  closeModal st modalId.

Definition triggerModal (st : state) (e : env) (modalId : string) : state :=
  match map_get (modals st) modalId with
  | None => st
  | Some c =>
      if isShown c then st
      else if negb (canShowModal st e modalId (frequency c)) then st
      else showModal st e modalId
  end.

Definition resetFrequency (st : state) (modalId : string) : state :=
  let k := storage_prefix ++ modalId in
  let st1 := set_session st (removeItem (session st) (k ++ "_session")) in
  let st2 := set_local st1 (removeItem (local st1) (k ++ "_day")) in
  set_local st2 (removeItem (local st2) (k ++ "_week")).

(** ** Registration *)

Definition isDeviceCompatible (e : env) (c : config) : bool :=
  if Z.leb (innerWidth e) 768 then mobileEnabled c else desktopEnabled c.

(** [setupModalTrigger]: the time and page-load triggers arm a timer; the
    scroll, click and exit-intent triggers attach listeners that only user
    input fires, and [manual] (or an unknown type) arms nothing. *)
Definition setupModalTrigger (st : state) (e : env) (modalId : string)
  (c : config) : state :=
  if String.eqb (triggerType c) "time" then
    setTimeout st e
      (option_map (fun v => v * 1000 + delay c * 1000)
         (parseInt (triggerValue c)))
      (TriggerModal modalId)
  else if String.eqb (triggerType c) "page-load" then
    setTimeout st e (Some (delay c * 1000)) (TriggerModal modalId)
  else st.

(** [setupModalEvents]: the timer part (lines 349-357); the other handlers
    react to user input (close buttons, backdrop, Escape, forms). *)
Definition setupModalEvents (st : state) (e : env) (modalId : string) : state :=
  match map_get (modals st) modalId with
  | Some c =>
      if Z.ltb 0 (autoCloseAfter c) && negb (devMode c) then
        setTimeout st e (Some (autoCloseAfter c * 1000)) (AutoClose modalId)
      else st
  | None => st
  end.

Definition registerModal (st : state) (e : env) (modalId : string)
  (c : config) : state :=
  if negb (isDeviceCompatible e c) then st
  else if negb (canShowModal st e modalId (frequency c)) then st
  else
    let st1 := set_modals st (map_set (modals st) modalId c) in
    let st2 := setupModalTrigger st1 e modalId c in
    setupModalEvents st2 e modalId.

Definition is_registered (st : state) (modalId : string) : bool :=
  match map_get (modals st) modalId with Some _ => true | None => false end.

(** ** The event loop for timers *)

Definition run_action (st : state) (e : env) (a : timer_action) : state :=
  match a with
  | TriggerModal modalId => triggerModal st e modalId
  | AutoClose modalId =>
      match map_get (modals st) modalId with
      | Some c => if isShown c then closeModal st modalId else st
      | None => st
      end
  end.

(** The first pending timer with the smallest due time. *)
Fixpoint pop_earliest (ts : list (Z * timer_action))
  : option ((Z * timer_action) * list (Z * timer_action)) :=
  match ts with
  | [] => None
  | t :: r =>
      match pop_earliest r with
      | None => Some (t, [])
      | Some (t', r') =>
          if Z.ltb (fst t') (fst t) then Some (t', t :: r') else Some (t, r)
      end
  end.

Definition at_time (e : env) (t : Z) : env :=
  mkEnv t (year_start_ms e) (date_string e) (innerWidth e).

(** Fire pending timers in order until none is left (or [fuel] runs out);
    returns the clock at the last fired timer and the state. *)
Fixpoint run_timers (fuel : nat) (e : env) (st : state) : env * state :=
  match fuel with
  | O => (e, st)
  | S f =>
      match pop_earliest (timers st) with
      | None => (e, st)
      | Some ((t, a), rest) =>
          let e' := at_time e t in
          run_timers f e' (run_action (set_timers st rest) e' a)
      end
  end.

(** ** [cleanupOldData] *)

(** The [for] loop over [sessionStorage]: [i] counts up while items are
    removed, and [length] is read again at each test. Every iteration
    increments [i] and the length never grows, so [S (length s)] rounds
    are enough for the loop to exit on its own. *)
Fixpoint cleanup_loop (fuel : nat) (i : nat) (oneWeekAgo : Z) (s : store)
  : store :=
  match fuel with
  | O => s
  | S f =>
      if Nat.ltb i (List.length s) then
        let s' :=
          match key s i with
          | Some k =>
              if String.prefix storage_prefix k then
                let value := getItem s k in
                if truthy value &&
                   match parseInt_item value with
                   | Some n => Z.ltb n oneWeekAgo
                   | None => false   (* NaN < x is false *)
                   end
                then removeItem s k else s
              else s
          | None => s
          end in
        cleanup_loop f (S i) oneWeekAgo s'
      else s
  end.

Definition cleanupOldData (st : state) (e : env) : state :=
  let oneWeekAgo := now_ms e - 7 * 24 * 60 * 60 * 1000 in
  set_session st (cleanup_loop (S (List.length (session st))) 0 oneWeekAgo (session st)).

(** ** Discovery: [parseModalConfig] and [discoverModals] *)

(** An element's [dataset]: camel-cased [data-*] attribute names and their
    values, looked up like a storage ([undefined] is [None]). *)
Definition dataset := list (string * string).

Definition dataset_get (ds : dataset) (k : string) : option string :=
  getItem ds k.

(** [v || d] on a string attribute: [undefined] and [""] give [d]. *)
Definition or_default (v : option string) (d : string) : string :=
  match v with
  | Some EmptyString | None => d
  | Some s => s
  end.

(** [v !== 'false'] and [v === 'true'] on an attribute. *)
Definition not_false (v : option string) : bool :=
  match v with Some s => negb (String.eqb s "false") | None => true end.

Definition is_true_attr (v : option string) : bool :=
  match v with Some s => String.eqb s "true" | None => false end.

Definition parseModalConfig (ds : dataset) : config :=
  mkConfig
    (or_default (dataset_get ds "modalTriggerType") "page-load")
    (or_default (dataset_get ds "modalTriggerValue") "0")
    (or_default (dataset_get ds "modalFrequency") "once-per-session")
    (or0 (parseInt_item (dataset_get ds "modalDelay")))
    (not_false (dataset_get ds "modalMobile"))
    (not_false (dataset_get ds "modalDesktop"))
    (not_false (dataset_get ds "modalCloseOutside"))
    (or0 (parseInt_item (dataset_get ds "modalAutoClose")))
    (is_true_attr (dataset_get ds "modalDevMode"))
    false
    None.

(** [document.querySelectorAll('[data-modal-trigger-type]')] keeps the
    elements that carry the attribute, in document order. *)
Definition has_trigger_type (ds : dataset) : bool :=
  match dataset_get ds "modalTriggerType" with Some _ => true | None => false end.

(** One round of the [forEach]: [if (!modalId) return]. *)
Definition discover_one (st : state) (e : env) (ds : dataset) : state :=
  match dataset_get ds "modalId" with
  | None | Some EmptyString => st
  | Some modalId => registerModal st e modalId (parseModalConfig ds)
  end.

Definition discoverModals (st : state) (e : env) (elements : list dataset)
  : state :=
  fold_left (fun st' ds => discover_one st' e ds)
    (filter has_trigger_type elements) st.

(** ** The rest of the public API *)

(** [hideAll]: [this.modals.forEach((config, modalId) => ...)]; the
    callback reads the config currently stored under [modalId]. *)
Definition hide_step (st : state) (modalId : string) : state :=
  match map_get (modals st) modalId with
  | Some c => if isShown c then closeModal st modalId else st
  | None => st
  end.

Definition hideAll (st : state) : state :=
  fold_left (fun st' kv => hide_step st' (fst kv)) (modals st) st.

Definition with_dev (c : config) (b : bool) : config :=
  mkConfig (triggerType c) (triggerValue c) (frequency c) (delay c)
    (mobileEnabled c) (desktopEnabled c) (closeOnOutsideClick c)
    (autoCloseAfter c) b (isShown c) (lastShown c).

(** [enableDevMode] and [disableDevMode]; the [data-modal-dev-mode]
    attribute they also set is read only by [parseModalConfig], at
    discovery. *)
Definition enableDevMode (st : state) (modalId : string) : state :=
  match map_get (modals st) modalId with
  | Some c => set_modals st (map_set (modals st) modalId (with_dev c true))
  | None => st
  end.

Definition disableDevMode (st : state) (modalId : string) : state :=
  match map_get (modals st) modalId with
  | Some c => set_modals st (map_set (modals st) modalId (with_dev c false))
  | None => st
  end.

(** The object returned by [getStatus]; [triggerType] and [frequency] are
    absent ([None]) for an unknown id. *)
Record status := mkStatus {
  st_isRegistered : bool;
  st_isShown : bool;
  st_lastShown : option Z;
  st_canShow : bool;
  st_devMode : bool;
  st_triggerType : option string;
  st_frequency : option string
}.

Definition getStatus (st : state) (e : env) (modalId : string) : status :=
  match map_get (modals st) modalId with
  | Some c =>
      mkStatus true (isShown c) (lastShown c)
        (canShowModal st e modalId (frequency c)) (devMode c)
        (Some (triggerType c)) (Some (frequency c))
  | None => mkStatus false false None false false None None
  end.

Definition is_shown (st : state) (modalId : string) : bool :=
  match map_get (modals st) modalId with Some c => isShown c | None => false end.

(** * Properties *)

(** ** Association lists *)

Lemma getItem_setItem_same s k v : getItem (setItem s k v) k = Some v.
Proof.
  induction s as [|[k' v'] r IH]; simpl.
  - now rewrite String.eqb_refl.
  - destruct (String.eqb k k') eqn:E; simpl.
    + now rewrite String.eqb_refl.
    + now rewrite E.
Qed.

Lemma getItem_removeItem s k' k :
  getItem (removeItem s k') k = if String.eqb k' k then None else getItem s k.
Proof.
  unfold removeItem.
  induction s as [|[k0 v0] r IH]; simpl.
  - now destruct (String.eqb k' k).
  - destruct (String.eqb k' k0) eqn:E0; simpl.
    + rewrite IH. apply String.eqb_eq in E0; subst k0.
      destruct (String.eqb k' k) eqn:E; [reflexivity|].
      rewrite String.eqb_sym, E. reflexivity.
    + destruct (String.eqb k k0) eqn:E1; [|exact IH].
      apply String.eqb_eq in E1; subst k0.
      rewrite E0. reflexivity.
Qed.

Lemma map_get_map_set_same m k v : map_get (map_set m k v) k = Some v.
Proof.
  induction m as [|[k' v'] r IH]; simpl.
  - now rewrite String.eqb_refl.
  - destruct (String.eqb k k') eqn:E; simpl.
    + now rewrite String.eqb_refl.
    + now rewrite E.
Qed.

(** ** Numbers written by [toString] and read back by [parseInt] *)

Lemma dec_prefix_uint u : dec_prefix (uint_to_string u) = u.
Proof. induction u; simpl; congruence. Qed.

Lemma parseInt_unsigned_uint u :
  parseInt_unsigned (uint_to_string u) =
  match u with Decimal.Nil => None | _ => Some (Z.of_uint u) end.
Proof.
  destruct u as [|u|u|u|u|u|u|u|u|u|u]; try reflexivity;
    try (unfold parseInt_unsigned; simpl; rewrite dec_prefix_uint; reflexivity).
  destruct u; unfold parseInt_unsigned; simpl; rewrite ?dec_prefix_uint;
    reflexivity.
Qed.

Lemma trim_start_uint u : trim_start (uint_to_string u) = uint_to_string u.
Proof. destruct u; reflexivity. Qed.

Lemma parseInt_uint u :
  parseInt (uint_to_string u) = parseInt_unsigned (uint_to_string u).
Proof. destruct u; reflexivity. Qed.

Lemma or0_parseInt_number_to_string z :
  or0 (parseInt (number_to_string z)) = z.
Proof.
  rewrite <- (DecimalZ.of_to z) at 2.
  unfold number_to_string.
  destruct (Z.to_int z) as [u|u]; simpl Z.of_int.
  - rewrite parseInt_uint, parseInt_unsigned_uint.
    destruct u; reflexivity.
  - unfold parseInt. simpl trim_start. cbv beta iota.
    rewrite parseInt_unsigned_uint.
    destruct u; reflexivity.
Qed.

Lemma number_to_string_nonempty z : number_to_string z <> EmptyString.
Proof.
  unfold number_to_string.
  destruct (Z.to_int z) as [u|u] eqn:E; [|discriminate].
  destruct u; try discriminate.
  pose proof (DecimalZ.of_to z) as H. rewrite E in H.
  simpl in H. subst z. discriminate.
Qed.

(** ** Shape of the show transition *)

Lemma track_write_modals st e modalId f :
  modals (track_write st e modalId f) = modals st.
Proof.
  unfold track_write.
  repeat match goal with |- context [if ?b then _ else _] => destruct b end;
    reflexivity.
Qed.



Lemma showModal_registered st e modalId c :
  map_get (modals st) modalId = Some c ->
  showModal st e modalId =
  dispatchModalEvent
    (set_overflow
       (trackModalDisplay
          (set_modals st (map_set (modals st) modalId
                            (with_shown c true (Some (now_ms e)))))
          e modalId (frequency c))
       "hidden")
    "modal:shown" modalId.
Proof. intros H. unfold showModal. now rewrite H. Qed.

Lemma trackModalDisplay_after_set st e modalId c f :
  trackModalDisplay
    (set_modals st (map_set (modals st) modalId c)) e modalId f =
  if devMode c then set_modals st (map_set (modals st) modalId c)
  else track_write (set_modals st (map_set (modals st) modalId c)) e modalId f.
Proof.
  unfold trackModalDisplay. simpl modals.
  now rewrite map_get_map_set_same.
Qed.

Lemma modals_showModal st e modalId c :
  map_get (modals st) modalId = Some c ->
  modals (showModal st e modalId) =
  map_set (modals st) modalId (with_shown c true (Some (now_ms e))).
Proof.
  intros H. rewrite (showModal_registered st e modalId c H).
  rewrite trackModalDisplay_after_set. simpl.
  destruct (devMode c); [reflexivity|].
  now rewrite track_write_modals.
Qed.


Lemma is_shown_showModal st e modalId c :
  map_get (modals st) modalId = Some c ->
  is_shown (showModal st e modalId) modalId = true.
Proof.
  intros H. unfold is_shown.
  rewrite (modals_showModal st e modalId c H), map_get_map_set_same.
  reflexivity.
Qed.

(** ** C1 *)

(** Claim C1: after a successful show of a non-dev modal whose frequency is
    once-per-session, once-per-day or once-per-week, [canShowModal] for the
    same id and kind returns false for any later clock in the same scope
    window (the same session store, the same [toDateString()], the same
    [getWeekNumber()]); and for a registered dev-mode modal [canShowModal]
    returns true whatever the stores hold. *)
Theorem show_then_canShowModal_false :
  (forall st e1 e2 modalId c,
     map_get (modals st) modalId = Some c ->
     devMode c = false ->
     (frequency c = "once-per-session" \/
      (frequency c = "once-per-day" /\ date_string e2 = date_string e1) \/
      (frequency c = "once-per-week" /\ getWeekNumber e2 = getWeekNumber e1)) ->
     canShowModal (showModal st e1 modalId) e2 modalId (frequency c) = false) /\
  (forall st e modalId c f,
     map_get (modals st) modalId = Some c ->
     devMode c = true ->
     canShowModal st e modalId f = true).
Proof.
  split.
  - intros st e1 e2 modalId c Hget Hdev Hkind.
    unfold canShowModal.
    rewrite (modals_showModal st e1 modalId c Hget), map_get_map_set_same.
    simpl devMode. rewrite Hdev.
    rewrite (showModal_registered st e1 modalId c Hget).
    rewrite trackModalDisplay_after_set. simpl devMode. rewrite Hdev.
    destruct Hkind as [Hf|[[Hf Hd]|[Hf Hw]]]; rewrite Hf;
      unfold frequency_check, track_write; simpl.
    + rewrite getItem_setItem_same.
      destruct (number_to_string (now_ms e1)) eqn:Es; [|reflexivity].
      exfalso. exact (number_to_string_nonempty _ Es).
    + rewrite getItem_setItem_same, Hd, String.eqb_refl. reflexivity.
    + rewrite getItem_setItem_same. simpl parseInt_item.
      rewrite or0_parseInt_number_to_string, Hw, Z.eqb_refl. reflexivity.
  - intros st e modalId c f Hget Hdev.
    unfold canShowModal. now rewrite Hget, Hdev.
Qed.

(** ** Registration keeps the device gate *)

Lemma setTimeout_modals st e d a : modals (setTimeout st e d a) = modals st.
Proof. reflexivity. Qed.

Lemma setupModalTrigger_modals st e modalId c :
  modals (setupModalTrigger st e modalId c) = modals st.
Proof.
  unfold setupModalTrigger.
  repeat match goal with |- context [if ?b then _ else _] => destruct b end;
    reflexivity.
Qed.

Lemma setupModalEvents_modals st e modalId :
  modals (setupModalEvents st e modalId) = modals st.
Proof.
  unfold setupModalEvents.
  destruct (map_get (modals st) modalId); [|reflexivity].
  repeat match goal with |- context [if ?b then _ else _] => destruct b end;
    reflexivity.
Qed.

(** A concrete page: a desktop viewport on 14 November 2023. *)
Definition env_desktop : env :=
  mkEnv 1700000000000 1672531200000 "Tue Nov 14 2023" 1200.

Definition empty_state : state := mkState [] [] [] "" [] [].

(** Claim C2 (counterexample): a dev-mode modal is not registered on a
    desktop viewport when [desktopEnabled] is false, nor when a session
    record already exists for its id. *)
Lemma registerModal_devMode_skipped :
  is_registered
    (registerModal empty_state env_desktop "a"
       (mkConfig "page-load" "0" "always" 0 true false true 0 true false None))
    "a" = false /\
  is_registered
    (registerModal (set_session empty_state [("modal_a_session", "1")])
       env_desktop "a"
       (mkConfig "page-load" "0" "once-per-session" 0 true true true 0 true
          false None))
    "a" = false.
Proof. split; vm_compute; reflexivity. Qed.

(** Claim C2 (amended): for a dev-mode configuration the device check still
    gates registration: on an incompatible device nothing changes; on a
    compatible device the modal is registered whenever the frequency check
    for its id passes. *)
Theorem registerModal_devMode_device_gate st e modalId c :
  devMode c = true ->
  (isDeviceCompatible e c = false -> registerModal st e modalId c = st) /\
  (isDeviceCompatible e c = true ->
   canShowModal st e modalId (frequency c) = true ->
   is_registered (registerModal st e modalId c) modalId = true).
Proof.
  intros _. split.
  - intros Hd. unfold registerModal. now rewrite Hd.
  - intros Hd Hc. unfold registerModal. rewrite Hd, Hc. simpl negb.
    cbv iota. unfold is_registered.
    rewrite setupModalEvents_modals, setupModalTrigger_modals. simpl.
    now rewrite map_get_map_set_same.
Qed.

(** ** The public [show] *)



(** ** Dev mode blocks [close] but not [forceClose] *)

(** Claim C5: for a registered dev-mode modal that is visible, [closeModal]
    and the public [hide] leave the state unchanged, while [forceClose]
    hides it, restores the body scroll and dispatches [modal:closed]. *)
Theorem devMode_close_blocked_forceClose_hides st modalId c :
  map_get (modals st) modalId = Some c ->
  devMode c = true ->
  isShown c = true ->
  closeModal st modalId = st /\
  hide st modalId = st /\
  is_shown (forceClose st modalId) modalId = false /\
  body_overflow (forceClose st modalId) = "" /\
  events (forceClose st modalId) = (events st ++ [("modal:closed", modalId)])%list.
Proof.
  intros Hget Hdev Hshown.
  assert (Hc : closeModal st modalId = st).
  { unfold closeModal. now rewrite Hget, Hshown, Hdev. }
  split; [exact Hc|]. split; [exact Hc|].
  unfold forceClose. rewrite Hget, Hshown. simpl negb. cbv iota.
  split; [|split; reflexivity].
  unfold is_shown. simpl. now rewrite map_get_map_set_same.
Qed.

(** ** [triggerModal] *)

Definition trigger_condition (st : state) (e : env) (modalId : string) : bool :=
  match map_get (modals st) modalId with
  | Some c => negb (isShown c) && canShowModal st e modalId (frequency c)
  | None => false
  end.

(** Claim C6: a trigger firing makes the modal go from hidden to visible
    exactly when the id is registered, the modal is not shown and
    [canShowModal] holds at that moment; otherwise the state is unchanged. *)
Theorem triggerModal_spec st e modalId :
  ((is_shown st modalId = false /\
    is_shown (triggerModal st e modalId) modalId = true) <->
   trigger_condition st e modalId = true) /\
  (trigger_condition st e modalId = true ->
   triggerModal st e modalId = showModal st e modalId) /\
  (trigger_condition st e modalId = false ->
   triggerModal st e modalId = st).
Proof.
  unfold trigger_condition, triggerModal, is_shown.
  destruct (map_get (modals st) modalId) as [c|] eqn:Hget.
  - destruct (isShown c) eqn:Hs; simpl.
    + rewrite Hget, Hs. split; [split; [intros [H _]; discriminate|discriminate]|].
      split; [discriminate|reflexivity].
    + destruct (canShowModal st e modalId (frequency c)) eqn:Hc; simpl.
      * pose proof (is_shown_showModal st e modalId c Hget) as H.
        unfold is_shown in H. rewrite H.
        split; [tauto|]. split; [reflexivity|discriminate].
      * rewrite Hget, Hs. split; [split; [intros [_ H]; discriminate|discriminate]|].
        split; [discriminate|reflexivity].
  - rewrite Hget. split; [split; [intros [_ H]; discriminate|discriminate]|].
    split; [discriminate|reflexivity].
Qed.

(** ** Unknown frequency values *)

(** Claim C10: for a frequency outside the four known kinds,
    [canShowModal] returns true. *)
Theorem canShowModal_unknown_frequency st e modalId f :
  f <> "always" -> f <> "once-per-session" -> f <> "once-per-day" ->
  f <> "once-per-week" ->
  canShowModal st e modalId f = true.
Proof.
  intros H1 H2 H3 H4.
  assert (Hf : frequency_check st e modalId f = true).
  { unfold frequency_check.
    apply String.eqb_neq in H1, H2, H3, H4.
    now rewrite H1, H2, H3, H4. }
  unfold canShowModal.
  destruct (map_get (modals st) modalId) as [c|]; [|exact Hf].
  now destruct (devMode c).
Qed.

(** ** [resetFrequency] after [show] *)

Lemma eqb_append_l s a b : String.eqb (s ++ a) (s ++ b) = String.eqb a b.
Proof. induction s as [|ch s IH]; simpl; [reflexivity|]. now rewrite Ascii.eqb_refl. Qed.

Lemma frequency_check_reset st e modalId kind :
  frequency_check (resetFrequency st modalId) e modalId kind =
  negb (String.eqb kind "once-per-week" && Z.eqb (getWeekNumber e) 0).
Proof.
  unfold frequency_check, resetFrequency.
  cbn [session local set_session set_local].
  rewrite !getItem_removeItem, !String.eqb_refl, !eqb_append_l.
  destruct (String.eqb_spec kind "always"); [subst; reflexivity|].
  destruct (String.eqb_spec kind "once-per-session"); [subst; reflexivity|].
  destruct (String.eqb_spec kind "once-per-day"); [subst; reflexivity|].
  destruct (String.eqb_spec kind "once-per-week"); [subst; reflexivity|].
  reflexivity.
Qed.

(** Claim C7 (counterexample): a non-dev modal with once-per-session
    frequency and a once-per-day record for today: before [show],
    [canShowModal] for once-per-day is false; after [show] and
    [resetFrequency] it is true. *)
Lemma show_resetFrequency_changes_other_kind :
  let st := mkState
              [("a", mkConfig "manual" "0" "once-per-session" 0 true true true
                       0 false false None)]
              [] [("modal_a_day", "Tue Nov 14 2023")] "" [] [] in
  canShowModal st env_desktop "a" "once-per-day" = false /\
  canShowModal (resetFrequency (show st env_desktop "a") "a") env_desktop "a"
    "once-per-day" = true.
Proof. split; vm_compute; reflexivity. Qed.

(** Claim C7 (amended): whenever [getWeekNumber()] is not 0, after [show]
    then [resetFrequency] on the same id, [canShowModal] for that id
    returns true for every kind, whatever was stored for the id before the
    show; so the reset gives back the pre-show result exactly when that
    result was true. *)
Theorem show_resetFrequency_canShowModal st e e' modalId kind :
  getWeekNumber e' <> 0 ->
  canShowModal (resetFrequency (show st e modalId) modalId) e' modalId kind = true /\
  (canShowModal (resetFrequency (show st e modalId) modalId) e' modalId kind =
     canShowModal st e' modalId kind <->
   canShowModal st e' modalId kind = true).
Proof.
  intros Hw.
  assert (H : canShowModal (resetFrequency (show st e modalId) modalId) e'
                modalId kind = true).
  { unfold canShowModal.
    replace (modals (resetFrequency (show st e modalId) modalId))
      with (modals (show st e modalId)) by reflexivity.
    rewrite frequency_check_reset.
    apply Z.eqb_neq in Hw. rewrite Hw, andb_false_r.
    destruct (map_get (modals (show st e modalId)) modalId) as [c|];
      [destruct (devMode c)|]; reflexivity. }
  split; [exact H|]. rewrite H. split; intros E; symmetry; exact E.
Qed.

(** ** [getWeekNumber] *)

Definition day_ms : Z := 24 * 60 * 60 * 1000.

(** Claim C8: the week number is the ceiling of the milliseconds elapsed
    since 1 January (local time) divided by one week: the least integer
    [w] with [diff <= w * week_ms]; for a whole number [d] of elapsed days
    it is the ceiling of [d / 7]. *)
Theorem getWeekNumber_ceil e :
  let diff := now_ms e - year_start_ms e in
  diff <= getWeekNumber e * week_ms /\
  (getWeekNumber e - 1) * week_ms < diff /\
  (forall d, diff = d * day_ms ->
   d <= 7 * getWeekNumber e /\ 7 * (getWeekNumber e - 1) < d).
Proof.
  cbv zeta. unfold getWeekNumber.
  set (diff := now_ms e - year_start_ms e).
  assert (HW : week_ms = 7 * day_ms) by reflexivity.
  assert (HD : 0 < day_ms) by (unfold day_ms; lia).
  pose proof (Z.div_mod (- diff) week_ms) as Hdm.
  pose proof (Z.mod_pos_bound (- diff) week_ms) as Hb.
  set (q := - diff / week_ms) in *.
  set (r := (- diff) mod week_ms) in *.
  rewrite HW in *.
  specialize (Hb ltac:(lia)).
  split; [nia|]. split; [nia|].
  intros d Hd. split; nia.
Qed.

(** ** [cleanupOldData] *)

(** Claim C9 (failing input): two expired session records of the manager,
    stored next to each other; the loop removes the first, the second
    moves to index 0 while [i] moves to 1, and it is never examined. *)
Theorem cleanupOldData_skips_after_removal :
  let st := set_session empty_state
              [("modal_a_session", "1600000000000");
               ("modal_b_session", "1600000000000")] in
  Z.ltb 1600000000000 (now_ms env_desktop - 7 * 24 * 60 * 60 * 1000) = true /\
  session (cleanupOldData st env_desktop) =
    [("modal_b_session", "1600000000000")].
Proof. split; vm_compute; reflexivity. Qed.

(** ** Auto-close *)

(** Claim C4 (failing input): a time-triggered modal (10 s) with
    [autoCloseAfter = 5] and no dev mode, registered at [t]. The auto-close
    timer is armed at registration and fires at [t + 5 s], while the modal
    is still hidden; the modal is shown at [t + 10 s] and, once every
    pending timer has run, it is still visible with no timer left. *)
Theorem autoClose_armed_at_registration :
  let c := mkConfig "time" "10" "always" 0 true true true 5 false false None in
  let st := registerModal empty_state env_desktop "a" c in
  timers st = [(1700000010000, TriggerModal "a"); (1700000005000, AutoClose "a")] /\
  let '(e', st') := run_timers 10 env_desktop st in
  now_ms e' = 1700000010000 /\
  is_shown st' "a" = true /\
  option_map lastShown (map_get (modals st') "a") = Some (Some 1700000010000) /\
  timers st' = [].
Proof. vm_compute. repeat split. Qed.

(** ** Concrete instances of the theorems with hypotheses *)

Definition cfg_session : config :=
  mkConfig "manual" "0" "once-per-session" 0 true true true 0 false false None.

Definition st_session : state := mkState [("a", cfg_session)] [] [] "" [] [].

Definition cfg_dev_shown : config :=
  mkConfig "manual" "0" "always" 0 true true true 0 true true (Some 1).

Definition st_dev_shown : state :=
  mkState [("a", cfg_dev_shown)] [] [] "hidden" [("modal:shown", "a")] [].

Definition cfg_dev_desktop : config :=
  mkConfig "page-load" "0" "once-per-session" 0 false true true 0 true false None.

Lemma show_then_canShowModal_false_witness :
  map_get (modals st_session) "a" = Some cfg_session /\
  devMode cfg_session = false /\
  canShowModal (showModal st_session env_desktop "a") env_desktop "a"
    (frequency cfg_session) = false.
Proof.
  split; [reflexivity|]. split; [reflexivity|].
  apply (proj1 show_then_canShowModal_false st_session env_desktop env_desktop
           "a" cfg_session); [reflexivity | reflexivity | left; reflexivity].
Defined.

Lemma registerModal_devMode_device_gate_witness :
  devMode cfg_dev_desktop = true /\
  isDeviceCompatible env_desktop cfg_dev_desktop = true /\
  canShowModal empty_state env_desktop "a" (frequency cfg_dev_desktop) = true /\
  is_registered (registerModal empty_state env_desktop "a" cfg_dev_desktop) "a"
    = true.
Proof.
  split; [reflexivity|]. split; [reflexivity|]. split; [vm_compute; reflexivity|].
  apply (proj2 (registerModal_devMode_device_gate empty_state env_desktop "a"
                  cfg_dev_desktop eq_refl) eq_refl).
  vm_compute. reflexivity.
Defined.


Lemma devMode_close_blocked_forceClose_hides_witness :
  map_get (modals st_dev_shown) "a" = Some cfg_dev_shown /\
  closeModal st_dev_shown "a" = st_dev_shown /\
  is_shown (forceClose st_dev_shown "a") "a" = false.
Proof.
  split; [reflexivity|].
  destruct (devMode_close_blocked_forceClose_hides st_dev_shown "a"
              cfg_dev_shown eq_refl eq_refl eq_refl) as [H1 [_ [H3 _]]].
  split; [exact H1 | exact H3].
Defined.

Lemma triggerModal_spec_witness :
  trigger_condition st_session env_desktop "a" = true /\
  triggerModal st_session env_desktop "a" = showModal st_session env_desktop "a".
Proof.
  split; [vm_compute; reflexivity|].
  apply (proj1 (proj2 (triggerModal_spec st_session env_desktop "a"))).
  vm_compute. reflexivity.
Defined.

Lemma getWeekNumber_ceil_witness :
  let e := mkEnv (1672531200000 + 8 * day_ms) 1672531200000 "Mon Jan 09 2023"
             1200 in
  now_ms e - year_start_ms e = 8 * day_ms /\
  8 <= 7 * getWeekNumber e /\ 7 * (getWeekNumber e - 1) < 8.
Proof.
  cbv zeta. split; [reflexivity|].
  apply (proj2 (proj2 (getWeekNumber_ceil
    (mkEnv (1672531200000 + 8 * day_ms) 1672531200000 "Mon Jan 09 2023" 1200)))).
  reflexivity.
Defined.

Lemma canShowModal_unknown_frequency_witness :
  canShowModal st_session env_desktop "a" "hourly" = true.
Proof.
  apply canShowModal_unknown_frequency; discriminate.
Defined.

(** * Further properties of the manager *)

(** ** Association lists, continued *)

Lemma map_get_map_set m k v k' :
  map_get (map_set m k v) k' = if String.eqb k' k then Some v else map_get m k'.
Proof.
  induction m as [|[k0 v0] r IH]; simpl.
  - destruct (String.eqb k' k); reflexivity.
  - destruct (String.eqb_spec k k0) as [->|Hne]; simpl.
    + destruct (String.eqb k' k0); reflexivity.
    + rewrite IH. destruct (String.eqb k' k) eqn:E; [|reflexivity].
      apply String.eqb_eq in E. subst k'.
      apply String.eqb_neq in Hne. now rewrite Hne.
Qed.

Lemma getItem_setItem s k v k' :
  getItem (setItem s k v) k' = if String.eqb k' k then Some v else getItem s k'.
Proof.
  induction s as [|[k0 v0] r IH]; simpl.
  - destruct (String.eqb k' k); reflexivity.
  - destruct (String.eqb_spec k k0) as [->|Hne]; simpl.
    + destruct (String.eqb k' k0); reflexivity.
    + rewrite IH. destruct (String.eqb k' k) eqn:E; [|reflexivity].
      apply String.eqb_eq in E. subst k'.
      apply String.eqb_neq in Hne. now rewrite Hne.
Qed.

Lemma map_get_in m k c : map_get m k = Some c -> existsb (String.eqb k) (map fst m) = true.
Proof.
  induction m as [|[k0 v0] r IH]; simpl; [discriminate|].
  destruct (String.eqb k k0); [reflexivity|]. exact IH.
Qed.

(** ** [parseModalConfig] *)

Lemma not_false_spec v : not_false v = false <-> v = Some "false".
Proof.
  destruct v as [s|]; simpl; [|split; discriminate].
  destruct (String.eqb_spec s "false") as [->|Hne]; simpl;
    split; intros H; congruence.
Qed.

Lemma is_true_attr_spec v : is_true_attr v = true <-> v = Some "true".
Proof.
  destruct v as [s|]; simpl; [|split; discriminate].
  destruct (String.eqb_spec s "true") as [->|Hne]; split; intros H; congruence.
Qed.

Lemma or_default_falsy v d : truthy v = false -> or_default v d = d.
Proof. destruct v as [[|c s]|]; simpl; congruence. Qed.

(** A parsed configuration starts hidden and never shown; the mobile,
    desktop and outside-click flags are on unless the attribute is exactly
    ["false"]; dev mode is on only for exactly ["true"]; a missing or empty
    trigger type, trigger value or frequency gives [page-load], ["0"] and
    [once-per-session]; a missing or non-numeric delay or auto-close time
    gives 0. *)
Theorem parseModalConfig_defaults ds :
  let c := parseModalConfig ds in
  isShown c = false /\ lastShown c = None /\
  (mobileEnabled c = false <-> dataset_get ds "modalMobile" = Some "false") /\
  (desktopEnabled c = false <-> dataset_get ds "modalDesktop" = Some "false") /\
  (closeOnOutsideClick c = false <->
     dataset_get ds "modalCloseOutside" = Some "false") /\
  (devMode c = true <-> dataset_get ds "modalDevMode" = Some "true") /\
  (truthy (dataset_get ds "modalTriggerType") = false ->
     triggerType c = "page-load") /\
  (truthy (dataset_get ds "modalTriggerValue") = false -> triggerValue c = "0") /\
  (truthy (dataset_get ds "modalFrequency") = false ->
     frequency c = "once-per-session") /\
  (parseInt_item (dataset_get ds "modalDelay") = None -> delay c = 0) /\
  (parseInt_item (dataset_get ds "modalAutoClose") = None -> autoCloseAfter c = 0).
Proof.
  cbv zeta. unfold parseModalConfig; simpl.
  split; [reflexivity|]. split; [reflexivity|].
  split; [apply not_false_spec|]. split; [apply not_false_spec|].
  split; [apply not_false_spec|]. split; [apply is_true_attr_spec|].
  split; [apply or_default_falsy|]. split; [apply or_default_falsy|].
  split; [apply or_default_falsy|].
  split; intros H; now rewrite H.
Qed.

(** ** Registration and discovery *)

Lemma registerModal_modals st e modalId c :
  modals (registerModal st e modalId c) =
  if negb (isDeviceCompatible e c) then modals st
  else if negb (canShowModal st e modalId (frequency c)) then modals st
  else map_set (modals st) modalId c.
Proof.
  unfold registerModal.
  destruct (negb (isDeviceCompatible e c)); [reflexivity|].
  destruct (negb (canShowModal st e modalId (frequency c))); [reflexivity|].
  rewrite setupModalEvents_modals, setupModalTrigger_modals. reflexivity.
Qed.

(** Registering an id is never refused because the id is already
    registered: when the device and frequency checks pass, the new
    configuration replaces the old one, including its [isShown] state. *)
Theorem registerModal_replaces st e modalId c :
  isDeviceCompatible e c = true ->
  canShowModal st e modalId (frequency c) = true ->
  map_get (modals (registerModal st e modalId c)) modalId = Some c.
Proof.
  intros Hd Hc. rewrite registerModal_modals, Hd, Hc. simpl.
  apply map_get_map_set_same.
Qed.

Lemma registerModal_registered st e modalId c k :
  is_registered (registerModal st e modalId c) k = true ->
  is_registered st k = true \/ k = modalId.
Proof.
  unfold is_registered. rewrite registerModal_modals.
  destruct (negb (isDeviceCompatible e c)); [now left|].
  destruct (negb (canShowModal st e modalId (frequency c))); [now left|].
  rewrite map_get_map_set.
  destruct (String.eqb_spec k modalId); [now right|now left].
Qed.

Lemma discover_fold_registered e L st k :
  is_registered (fold_left (fun st' ds => discover_one st' e ds) L st) k = true ->
  is_registered st k = true \/
  exists ds, In ds L /\ dataset_get ds "modalId" = Some k /\ k <> "".
Proof.
  revert st. induction L as [|ds L IH]; simpl; intros st H; [now left|].
  destruct (IH _ H) as [H1|[ds' [Hin Hk]]]; [|right; exists ds'; tauto].
  unfold discover_one in H1.
  destruct (dataset_get ds "modalId") as [[|ch s]|] eqn:Eid; try now left.
  destruct (registerModal_registered _ _ _ _ _ H1) as [H2|H2]; [now left|].
  right. exists ds. subst k. split; [now left|]. split; [exact Eid|discriminate].
Qed.

(** Discovery only registers ids read from discovered elements: every id
    registered afterwards was registered before, or is the non-empty
    [data-modal-id] of an element that has a [data-modal-trigger-type]. *)
Theorem discoverModals_registers_element_ids st e elements k :
  is_registered (discoverModals st e elements) k = true ->
  is_registered st k = true \/
  exists ds, In ds elements /\ has_trigger_type ds = true /\
             dataset_get ds "modalId" = Some k /\ k <> "".
Proof.
  unfold discoverModals. intros H.
  destruct (discover_fold_registered _ _ _ _ H) as [H1|[ds [Hin Hk]]];
    [now left|].
  apply filter_In in Hin. right. exists ds. tauto.
Qed.

(** ** [hideAll] *)

Definition close_cfg (c : config) : config :=
  if isShown c && negb (devMode c) then with_shown c false (lastShown c) else c.

Lemma close_cfg_idem c : close_cfg (close_cfg c) = close_cfg c.
Proof.
  unfold close_cfg. destruct (isShown c) eqn:Hs, (devMode c) eqn:Hd;
    simpl; rewrite ?Hs, ?Hd; reflexivity.
Qed.

Lemma hide_step_modals st k k' :
  map_get (modals (hide_step st k)) k' =
  if String.eqb k' k then option_map close_cfg (map_get (modals st) k)
  else map_get (modals st) k'.
Proof.
  unfold hide_step.
  destruct (map_get (modals st) k) as [c|] eqn:Hget.
  - destruct (isShown c) eqn:Hs.
    + unfold closeModal. rewrite Hget, Hs. simpl negb. cbv iota.
      destruct (devMode c) eqn:Hd.
      * destruct (String.eqb_spec k' k) as [E|E]; [|reflexivity].
        subst k'. rewrite Hget. simpl. unfold close_cfg. now rewrite Hs, Hd.
      * simpl. rewrite map_get_map_set.
        destruct (String.eqb k' k); [|reflexivity].
        simpl. unfold close_cfg. now rewrite Hs, Hd.
    + destruct (String.eqb_spec k' k) as [E|E]; [|reflexivity].
      subst k'. rewrite Hget. simpl. unfold close_cfg. now rewrite Hs.
  - destruct (String.eqb_spec k' k) as [E|E]; [|reflexivity].
    subst k'. now rewrite Hget.
Qed.

Lemma hide_step_stores st k :
  session (hide_step st k) = session st /\ local (hide_step st k) = local st.
Proof.
  unfold hide_step. destruct (map_get (modals st) k) as [c|] eqn:Hget;
    [|split; reflexivity].
  destruct (isShown c); [|split; reflexivity].
  unfold closeModal. rewrite Hget.
  destruct (negb (isShown c)); [split; reflexivity|].
  destruct (devMode c); split; reflexivity.
Qed.

Lemma hide_fold_modals (L : list (string * config)) st k' :
  map_get (modals (fold_left (fun st' kv => hide_step st' (fst kv)) L st)) k' =
  if existsb (String.eqb k') (map fst L)
  then option_map close_cfg (map_get (modals st) k')
  else map_get (modals st) k'.
Proof.
  revert st. induction L as [|[k v] L IH]; intros st; simpl; [reflexivity|].
  rewrite IH, !hide_step_modals.
  destruct (String.eqb_spec k' k) as [E|E]; simpl.
  - subst k'. destruct (existsb (String.eqb k) (map fst L)); [|reflexivity].
    destruct (map_get (modals st) k); simpl; [now rewrite close_cfg_idem|reflexivity].
  - reflexivity.
Qed.

Lemma hide_fold_stores (L : list (string * config)) st :
  session (fold_left (fun st' kv => hide_step st' (fst kv)) L st) = session st /\
  local (fold_left (fun st' kv => hide_step st' (fst kv)) L st) = local st.
Proof.
  revert st. induction L as [|kv L IH]; intros st; simpl; [split; reflexivity|].
  destruct (IH (hide_step st (fst kv))) as [H1 H2].
  destruct (hide_step_stores st (fst kv)) as [H3 H4].
  split; congruence.
Qed.

(** After [hideAll], a modal is visible exactly when it was visible and is
    in dev mode (dev mode blocks the close that [hideAll] routes through
    [closeModal]); the session and local stores are untouched. *)
Theorem hideAll_spec st k :
  is_shown (hideAll st) k =
    match map_get (modals st) k with
    | Some c => isShown c && devMode c
    | None => false
    end /\
  session (hideAll st) = session st /\ local (hideAll st) = local st.
Proof.
  unfold hideAll. split; [|apply hide_fold_stores].
  unfold is_shown. rewrite hide_fold_modals.
  destruct (map_get (modals st) k) as [c|] eqn:Hget.
  - rewrite (map_get_in _ _ _ Hget). simpl. unfold close_cfg.
    destruct (isShown c) eqn:Hs, (devMode c) eqn:Hd; simpl; rewrite ?Hs;
      reflexivity.
  - destruct (existsb (String.eqb k) (map fst (modals st))); reflexivity.
Qed.

(** ** Dev-mode toggles *)

Lemma map_set_twice m k v v' : map_set (map_set m k v) k v' = map_set m k v'.
Proof.
  induction m as [|[k0 v0] r IH]; simpl.
  - now rewrite String.eqb_refl.
  - destruct (String.eqb k k0) eqn:E; simpl.
    + now rewrite String.eqb_refl.
    + now rewrite E, IH.
Qed.

Lemma map_set_same_value m k c : map_get m k = Some c -> map_set m k c = m.
Proof.
  induction m as [|[k0 v0] r IH]; simpl; [discriminate|].
  destruct (String.eqb_spec k k0) as [E|E].
  - intros H. injection H as ->. now subst k0.
  - intros H. now rewrite IH.
Qed.

(** [enableDevMode] on a visible modal keeps it on screen: [hide] and an
    auto-close timer firing leave the state unchanged, and [canShowModal]
    holds for it under every frequency. *)
Theorem enableDevMode_blocks_close st e modalId c :
  map_get (modals st) modalId = Some c ->
  isShown c = true ->
  let st' := enableDevMode st modalId in
  is_shown st' modalId = true /\
  hide st' modalId = st' /\
  run_action st' e (AutoClose modalId) = st' /\
  (forall f, canShowModal st' e modalId f = true).
Proof.
  intros Hget Hs. cbv zeta.
  assert (Hg : map_get (modals (enableDevMode st modalId)) modalId =
               Some (with_dev c true)).
  { unfold enableDevMode. rewrite Hget. apply map_get_map_set_same. }
  assert (Hc : hide (enableDevMode st modalId) modalId = enableDevMode st modalId).
  { unfold hide, closeModal. rewrite Hg. simpl. now rewrite Hs. }
  split; [unfold is_shown; now rewrite Hg|]. split; [exact Hc|]. split.
  - simpl. rewrite Hg. simpl. rewrite Hs. exact Hc.
  - intros f. unfold canShowModal. now rewrite Hg.
Qed.

(** [disableDevMode] undoes [enableDevMode] on a modal that was not in dev
    mode, and both are no-ops on an unknown id. *)
Theorem disableDevMode_enableDevMode st modalId :
  (forall c, map_get (modals st) modalId = Some c -> devMode c = false ->
   disableDevMode (enableDevMode st modalId) modalId = st) /\
  (map_get (modals st) modalId = None ->
   enableDevMode st modalId = st /\ disableDevMode st modalId = st).
Proof.
  split.
  - intros c Hget Hd. unfold enableDevMode. rewrite Hget.
    unfold disableDevMode. simpl. rewrite map_get_map_set_same. simpl.
    rewrite map_set_twice.
    replace (with_dev (with_dev c true) false) with c
      by (destruct c; simpl in *; now subst).
    rewrite (map_set_same_value _ _ _ Hget).
    destruct st; reflexivity.
  - intros H. unfold enableDevMode, disableDevMode. now rewrite H.
Qed.

(** ** Frequency keys of different ids never collide *)

Lemma list_ascii_of_string_app a b :
  list_ascii_of_string (a ++ b) = (list_ascii_of_string a ++ list_ascii_of_string b)%list.
Proof. induction a as [|ch a IH]; simpl; [reflexivity|]. now rewrite IH. Qed.

Definition freq_suffixes : list string := ["_session"; "_day"; "_week"].

Lemma freq_key_inj i1 i2 s1 s2 :
  In s1 freq_suffixes -> In s2 freq_suffixes ->
  (storage_prefix ++ i1) ++ s1 = (storage_prefix ++ i2) ++ s2 -> i1 = i2.
Proof.
  intros H1 H2 H.
  apply (f_equal list_ascii_of_string) in H.
  rewrite !list_ascii_of_string_app in H.
  assert (Hsame : s1 = s2 -> i1 = i2).
  { intros <-. apply app_inv_tail in H. apply app_inv_head in H.
    rewrite <- (string_of_list_ascii_of_string i1), H.
    apply string_of_list_ascii_of_string. }
  apply (f_equal (@rev ascii)) in H. rewrite !rev_app_distr in H.
  simpl in H1, H2.
  destruct H1 as [<-|[<-|[<-|[]]]]; destruct H2 as [<-|[<-|[<-|[]]]];
    try (apply Hsame; reflexivity); simpl in H; discriminate H.
Qed.

Lemma freq_key_neq i1 i2 s1 s2 :
  i1 <> i2 -> In s1 freq_suffixes -> In s2 freq_suffixes ->
  String.eqb ((storage_prefix ++ i1) ++ s1) ((storage_prefix ++ i2) ++ s2) = false.
Proof.
  intros Hne H1 H2. apply String.eqb_neq. intros H.
  exact (Hne (freq_key_inj _ _ _ _ H1 H2 H)).
Qed.

Ltac key_neq :=
  rewrite ?freq_key_neq by (simpl; tauto || congruence).

Lemma frequency_check_ext st1 st2 e k f :
  session st1 = session st2 -> local st1 = local st2 ->
  frequency_check st1 e k f = frequency_check st2 e k f.
Proof. intros Hs Hl. unfold frequency_check. now rewrite Hs, Hl. Qed.

Lemma canShowModal_ext st1 st2 e k f :
  option_map devMode (map_get (modals st1) k) =
    option_map devMode (map_get (modals st2) k) ->
  session st1 = session st2 -> local st1 = local st2 ->
  canShowModal st1 e k f = canShowModal st2 e k f.
Proof.
  intros Hm Hs Hl. unfold canShowModal.
  rewrite (frequency_check_ext st1 st2 e k f Hs Hl).
  destruct (map_get (modals st1) k), (map_get (modals st2) k);
    simpl in Hm; try discriminate; [|reflexivity].
  injection Hm as ->. reflexivity.
Qed.

(** ** Frame properties *)

(** [resetFrequency] on one id never changes the gating of another id. *)
Theorem resetFrequency_other_id st e modalId other f :
  other <> modalId ->
  canShowModal (resetFrequency st modalId) e other f = canShowModal st e other f.
Proof.
  intros Hne. unfold canShowModal.
  replace (modals (resetFrequency st modalId)) with (modals st) by reflexivity.
  assert (Hf : frequency_check (resetFrequency st modalId) e other f =
               frequency_check st e other f).
  { unfold frequency_check, resetFrequency.
    cbn [session local set_session set_local].
    rewrite !getItem_removeItem.
    rewrite (freq_key_neq modalId other "_session" "_session"),
      (freq_key_neq modalId other "_week" "_day"),
      (freq_key_neq modalId other "_day" "_day"),
      (freq_key_neq modalId other "_week" "_week"),
      (freq_key_neq modalId other "_day" "_week")
      by (simpl; tauto || congruence).
    reflexivity. }
  rewrite Hf. reflexivity.
Qed.

Lemma frequency_check_track_write_other st e e' modalId other g f :
  other <> modalId ->
  frequency_check (track_write st e modalId g) e' other f =
  frequency_check st e' other f.
Proof.
  intros Hne. unfold track_write.
  destruct (String.eqb g "once-per-session").
  - unfold frequency_check. cbn [session local set_session].
    rewrite getItem_setItem.
    rewrite (freq_key_neq other modalId "_session" "_session")
      by (simpl; tauto || congruence).
    reflexivity.
  - destruct (String.eqb g "once-per-day").
    + unfold frequency_check. cbn [session local set_local].
      rewrite !getItem_setItem.
      rewrite (freq_key_neq other modalId "_day" "_day"),
        (freq_key_neq other modalId "_week" "_day")
        by (simpl; tauto || congruence).
      reflexivity.
    + destruct (String.eqb g "once-per-week"); [|reflexivity].
      unfold frequency_check. cbn [session local set_local].
      rewrite !getItem_setItem.
      rewrite (freq_key_neq other modalId "_day" "_week"),
        (freq_key_neq other modalId "_week" "_week")
        by (simpl; tauto || congruence).
      reflexivity.
Qed.

(** Showing one modal never changes another modal's visibility or its
    gating result, at any later time. *)
Theorem showModal_other_id st e e' modalId other f :
  other <> modalId ->
  is_shown (showModal st e modalId) other = is_shown st other /\
  canShowModal (showModal st e modalId) e' other f = canShowModal st e' other f.
Proof.
  intros Hne.
  destruct (map_get (modals st) modalId) as [c|] eqn:Hget;
    [|unfold showModal; rewrite Hget; split; reflexivity].
  assert (Hm : map_get (modals (showModal st e modalId)) other =
               map_get (modals st) other).
  { rewrite (modals_showModal st e modalId c Hget), map_get_map_set.
    apply String.eqb_neq in Hne. now rewrite Hne. }
  split; [unfold is_shown; now rewrite Hm|].
  unfold canShowModal. rewrite Hm.
  assert (Hf : frequency_check (showModal st e modalId) e' other f =
               frequency_check st e' other f).
  { rewrite (showModal_registered st e modalId c Hget),
      trackModalDisplay_after_set. simpl devMode.
    destruct (devMode c).
    - apply frequency_check_ext; reflexivity.
    - rewrite (frequency_check_ext _
                 (track_write (set_modals st (map_set (modals st) modalId
                    (with_shown c true (Some (now_ms e))))) e modalId
                    (frequency c)))
        by reflexivity.
      rewrite frequency_check_track_write_other by exact Hne.
      apply frequency_check_ext; reflexivity. }
  now rewrite Hf.
Qed.

(** Closing never touches frequency tracking: after [closeModal] or
    [forceClose] of any id, [canShowModal] gives the same answer for every
    id and frequency as before. *)
Theorem close_keeps_gating st e modalId k f :
  canShowModal (closeModal st modalId) e k f = canShowModal st e k f /\
  canShowModal (forceClose st modalId) e k f = canShowModal st e k f.
Proof.
  assert (Hgen : forall c, map_get (modals st) modalId = Some c ->
            canShowModal
              (dispatchModalEvent
                 (set_overflow
                    (set_modals st (map_set (modals st) modalId
                                      (with_shown c false (lastShown c)))) "")
                 "modal:closed" modalId) e k f = canShowModal st e k f).
  { intros c Hget. apply canShowModal_ext; [|reflexivity|reflexivity].
    simpl. rewrite map_get_map_set.
    destruct (String.eqb_spec k modalId) as [->|]; [now rewrite Hget|reflexivity]. }
  unfold closeModal, forceClose.
  destruct (map_get (modals st) modalId) as [c|] eqn:Hget; [|split; reflexivity].
  destruct (negb (isShown c)); [split; reflexivity|].
  split; [destruct (devMode c); [reflexivity|]|]; apply Hgen; reflexivity.
Qed.

(** Outside dev mode, [forceClose] is exactly [closeModal]. *)
Theorem forceClose_is_closeModal_outside_devMode st modalId :
  option_map devMode (map_get (modals st) modalId) <> Some true ->
  forceClose st modalId = closeModal st modalId.
Proof.
  intros H. unfold forceClose, closeModal.
  destruct (map_get (modals st) modalId) as [c|]; [|reflexivity].
  destruct (negb (isShown c)); [reflexivity|].
  simpl in H. destruct (devMode c); [congruence|reflexivity].
Qed.

(** ** Trigger firings *)

Lemma triggerModal_shown_noop st e modalId :
  is_shown st modalId = true -> triggerModal st e modalId = st.
Proof.
  unfold is_shown, triggerModal.
  destruct (map_get (modals st) modalId) as [c|]; [|discriminate].
  intros H. now rewrite H.
Qed.

(** Once a firing has shown a modal, every later firing of its trigger
    (a repeated click, another timer) is a no-op until it is closed. *)
Theorem triggerModal_repeat_noop st e e' modalId :
  is_shown (triggerModal st e modalId) modalId = true ->
  triggerModal (triggerModal st e modalId) e' modalId = triggerModal st e modalId.
Proof. intros H. now apply triggerModal_shown_noop. Qed.

(** [getStatus] right after a trigger firing has shown a non-dev
    once-per-session modal: registered, shown at the firing time, and
    no longer allowed to show, whatever the clock. *)
Theorem getStatus_after_trigger st e e' modalId c :
  map_get (modals st) modalId = Some c ->
  devMode c = false ->
  frequency c = "once-per-session" ->
  trigger_condition st e modalId = true ->
  getStatus (triggerModal st e modalId) e' modalId =
  mkStatus true true (Some (now_ms e)) false false
    (Some (triggerType c)) (Some "once-per-session").
Proof.
  intros Hget Hdev Hf Hc.
  unfold trigger_condition in Hc. rewrite Hget in Hc.
  apply andb_true_iff in Hc as [Hs Hcan].
  assert (Ht : triggerModal st e modalId = showModal st e modalId).
  { unfold triggerModal. rewrite Hget.
    destruct (isShown c); [discriminate|]. now rewrite Hcan. }
  rewrite Ht. unfold getStatus.
  rewrite (modals_showModal st e modalId c Hget), map_get_map_set_same.
  simpl. rewrite Hdev, Hf.
  unfold canShowModal.
  rewrite (modals_showModal st e modalId c Hget), map_get_map_set_same.
  simpl devMode. rewrite Hdev.
  rewrite (showModal_registered st e modalId c Hget).
  rewrite trackModalDisplay_after_set. simpl devMode. rewrite Hdev, Hf.
  unfold frequency_check, track_write; simpl.
  rewrite getItem_setItem_same.
  destruct (number_to_string (now_ms e)) eqn:Es; [|reflexivity].
  exfalso. exact (number_to_string_nonempty _ Es).
Qed.

(** ** [cleanupOldData] never adds, alters or wrongly removes *)

(** The removal test of the loop on a value read from [sessionStorage]. *)
Definition expired (oneWeekAgo : Z) (value : option string) : bool :=
  truthy value &&
  match parseInt_item value with
  | Some n => Z.ltb n oneWeekAgo
  | None => false
  end.

Lemma cleanup_loop_keeps f i w s k :
  String.prefix storage_prefix k = false \/ expired w (getItem s k) = false ->
  getItem (cleanup_loop f i w s) k = getItem s k.
Proof.
  revert i s. induction f as [|f IH]; intros i s Hk; simpl; [reflexivity|].
  destruct (Nat.ltb i (List.length s)); [|reflexivity].
  destruct (key s i) as [k'|]; [|now apply IH].
  destruct (String.prefix storage_prefix k') eqn:Hp; [|now apply IH].
  destruct (truthy (getItem s k') &&
            match parseInt_item (getItem s k') with
            | Some n => Z.ltb n w
            | None => false
            end) eqn:Hx; [|now apply IH].
  assert (Hne : String.eqb k' k = false).
  { destruct (String.eqb_spec k' k) as [->|]; [|reflexivity].
    exfalso. unfold expired in Hk. rewrite Hp, Hx in Hk.
    destruct Hk; discriminate. }
  assert (Hg : getItem (removeItem s k') k = getItem s k)
    by (rewrite getItem_removeItem, Hne; reflexivity).
  rewrite IH; [exact Hg|]. now rewrite Hg.
Qed.

Lemma cleanup_loop_sub f i w s k :
  getItem (cleanup_loop f i w s) k = getItem s k \/
  getItem (cleanup_loop f i w s) k = None.
Proof.
  revert i s. induction f as [|f IH]; intros i s; simpl; [now left|].
  destruct (Nat.ltb i (List.length s)); [|now left].
  set (s' := match key s i with
             | Some k0 => _
             | None => s
             end).
  assert (Hs' : getItem s' k = getItem s k \/ getItem s' k = None).
  { subst s'. destruct (key s i) as [k'|]; [|now left].
    destruct (String.prefix storage_prefix k'); [|now left].
    match goal with |- context [if ?b then _ else _] => destruct b end;
      [|now left].
    rewrite getItem_removeItem. destruct (String.eqb k' k); [now right|now left]. }
  destruct (IH (S i) s') as [H|H]; rewrite H; [exact Hs'|now right].
Qed.

(** [cleanupOldData] leaves [localStorage] alone; in [sessionStorage] it
    never adds or alters a value, and it keeps every key that does not
    start with [modal_] and every key whose value is missing, empty,
    non-numeric or not older than seven days. *)
Theorem cleanupOldData_keeps st e k :
  local (cleanupOldData st e) = local st /\
  (getItem (session (cleanupOldData st e)) k = getItem (session st) k \/
   getItem (session (cleanupOldData st e)) k = None) /\
  (String.prefix storage_prefix k = false \/
   expired (now_ms e - 7 * 24 * 60 * 60 * 1000) (getItem (session st) k) = false ->
   getItem (session (cleanupOldData st e)) k = getItem (session st) k).
Proof.
  split; [reflexivity|]. split.
  - apply cleanup_loop_sub.
  - apply cleanup_loop_keeps.
Qed.

(** ** Week numbers *)

(** Within a year, the week number never decreases as time passes; it is 0
    only at the first millisecond of 1 January and lies between 1 and 53
    for the rest of a year of at most 366 days. *)
Theorem getWeekNumber_monotone_bounded e1 e2 :
  (year_start_ms e1 = year_start_ms e2 -> now_ms e1 <= now_ms e2 ->
   getWeekNumber e1 <= getWeekNumber e2) /\
  (now_ms e1 = year_start_ms e1 -> getWeekNumber e1 = 0) /\
  (0 < now_ms e1 - year_start_ms e1 <= 366 * day_ms ->
   1 <= getWeekNumber e1 <= 53).
Proof.
  unfold getWeekNumber. split; [|split].
  - intros Hy Hn. rewrite Hy.
    assert (- (now_ms e2 - year_start_ms e2) / week_ms <=
            - (now_ms e1 - year_start_ms e2) / week_ms)
      by (apply Z.div_le_mono; [reflexivity|lia]).
    lia.
  - intros H. rewrite H, Z.sub_diag. reflexivity.
  - intros H. unfold day_ms in H.
    pose proof (Z.div_mod (- (now_ms e1 - year_start_ms e1)) week_ms) as Hdm.
    pose proof (Z.mod_pos_bound (- (now_ms e1 - year_start_ms e1)) week_ms) as Hb.
    unfold week_ms in *.
    set (q := - (now_ms e1 - year_start_ms e1) / (7 * 24 * 60 * 60 * 1000)) in *.
    set (r := (- (now_ms e1 - year_start_ms e1)) mod (7 * 24 * 60 * 60 * 1000)) in *.
    specialize (Hb ltac:(lia)). lia.
Qed.

Lemma track_write_timers st e modalId f :
  timers (track_write st e modalId f) = timers st.
Proof.
  unfold track_write.
  repeat match goal with |- context [if ?b then _ else _] => destruct b end;
    reflexivity.
Qed.

Lemma timers_showModal st e modalId :
  timers (showModal st e modalId) = timers st.
Proof.
  unfold showModal. destruct (map_get (modals st) modalId) as [c|] eqn:Hget;
    [|reflexivity].
  rewrite trackModalDisplay_after_set. simpl.
  destruct (devMode c); [reflexivity|]. now rewrite track_write_timers.
Qed.

Lemma timers_closeModal st modalId :
  timers (closeModal st modalId) = timers st.
Proof.
  unfold closeModal. destruct (map_get (modals st) modalId) as [c|];
    [|reflexivity].
  destruct (negb (isShown c)); [reflexivity|].
  destruct (devMode c); reflexivity.
Qed.

Lemma registerModal_pageLoad_timers st e modalId c :
  timers st = [] -> triggerType c = "page-load" -> devMode c = false ->
  0 < autoCloseAfter c ->
  isDeviceCompatible e c = true ->
  canShowModal st e modalId (frequency c) = true ->
  timers (registerModal st e modalId c) =
  [(now_ms e + Z.max 0 (delay c * 1000), TriggerModal modalId);
   (now_ms e + Z.max 0 (autoCloseAfter c * 1000), AutoClose modalId)].
Proof.
  intros Hts Ht Hdev Ha Hd Hc.
  unfold registerModal. rewrite Hd, Hc. simpl negb. cbv iota.
  unfold setupModalEvents.
  rewrite setupModalTrigger_modals. simpl modals.
  rewrite map_get_map_set_same, Hdev.
  assert (Ha' : Z.ltb 0 (autoCloseAfter c) = true) by (apply Z.ltb_lt; exact Ha).
  rewrite Ha'. simpl andb. cbv iota.
  unfold setupModalTrigger. rewrite Ht. simpl. rewrite Hts. reflexivity.
Qed.

Lemma closeModal_hides st modalId c :
  map_get (modals st) modalId = Some c -> devMode c = false ->
  is_shown (closeModal st modalId) modalId = false.
Proof.
  intros Hget Hdev. unfold is_shown, closeModal. rewrite Hget.
  destruct (isShown c) eqn:Hs; simpl; [|rewrite Hget; exact Hs].
  rewrite Hdev. simpl. now rewrite map_get_map_set_same.
Qed.

(** A page-load modal with an extra delay of [d] seconds and an auto-close
    time of [a > 0] seconds, outside dev mode: both timers are armed at
    registration, so once they have fired the modal is hidden when
    [d <= a] and stays visible (no timer left) when [d > a]. *)
Theorem pageLoad_autoClose st e modalId c :
  timers st = [] -> triggerType c = "page-load" -> devMode c = false ->
  isShown c = false -> 0 <= delay c -> 0 < autoCloseAfter c ->
  isDeviceCompatible e c = true ->
  canShowModal st e modalId (frequency c) = true ->
  canShowModal (registerModal st e modalId c)
    (at_time e (now_ms e + delay c * 1000)) modalId (frequency c) = true ->
  timers (snd (run_timers 2 e (registerModal st e modalId c))) = [] /\
  is_shown (snd (run_timers 2 e (registerModal st e modalId c))) modalId =
    negb (Z.leb (delay c) (autoCloseAfter c)).
Proof.
  intros Hts Ht Hdev Hs Hd0 Ha Hd Hc Hc2.
  pose proof (registerModal_pageLoad_timers st e modalId c Hts Ht Hdev Ha Hd Hc)
    as Htm.
  assert (Hm : map_get (modals (registerModal st e modalId c)) modalId = Some c)
    by (rewrite registerModal_modals, Hd, Hc; apply map_get_map_set_same).
  set (st1 := registerModal st e modalId c) in *.
  rewrite Z.max_r in Htm by lia. rewrite Z.max_r in Htm by lia.
  set (t1 := now_ms e + delay c * 1000) in *.
  set (t2 := now_ms e + autoCloseAfter c * 1000) in *.
  simpl run_timers. rewrite Htm. simpl pop_earliest.
  destruct (Z.ltb t2 t1) eqn:Hlt.
  - (* the auto-close timer fires first, while the modal is hidden *)
    assert (Hr : run_action (set_timers st1 [(t1, TriggerModal modalId)])
                   (at_time e t2) (AutoClose modalId) =
                 set_timers st1 [(t1, TriggerModal modalId)]).
    { simpl. rewrite Hm, Hs. reflexivity. }
    rewrite Hr. simpl pop_earliest. cbv iota beta.
    set (st2 := set_timers (set_timers st1 [(t1, TriggerModal modalId)]) []).
    assert (Hm2 : map_get (modals st2) modalId = Some c) by exact Hm.
    assert (Hc3 : canShowModal st2 (at_time (at_time e t2) t1) modalId
                    (frequency c) = true) by exact Hc2.
    assert (Htr : run_action st2 (at_time (at_time e t2) t1) (TriggerModal modalId)
                  = showModal st2 (at_time (at_time e t2) t1) modalId).
    { simpl. unfold triggerModal. rewrite Hm2, Hs, Hc3. reflexivity. }
    rewrite Htr. cbn [snd].
    split; [rewrite timers_showModal; reflexivity|].
    rewrite (is_shown_showModal _ _ _ _ Hm2).
    apply Z.ltb_lt in Hlt.
    symmetry. apply negb_true_iff, Z.leb_gt. lia.
  - (* the trigger fires first; the auto-close timer then closes it *)
    set (st2 := set_timers st1 [(t2, AutoClose modalId)]).
    assert (Hm2 : map_get (modals st2) modalId = Some c) by exact Hm.
    assert (Hc3 : canShowModal st2 (at_time e t1) modalId (frequency c) = true)
      by exact Hc2.
    assert (Htr : run_action st2 (at_time e t1) (TriggerModal modalId)
                  = showModal st2 (at_time e t1) modalId).
    { simpl. unfold triggerModal. rewrite Hm2, Hs, Hc3. reflexivity. }
    rewrite Htr. rewrite timers_showModal. simpl pop_earliest. cbv iota beta.
    set (st3 := set_timers (showModal st2 (at_time e t1) modalId) []).
    assert (Hm3 : map_get (modals st3) modalId =
                  Some (with_shown c true (Some (now_ms (at_time e t1))))).
    { subst st3. simpl modals.
      rewrite (modals_showModal _ _ _ _ Hm2). apply map_get_map_set_same. }
    simpl run_action. rewrite (modals_showModal _ _ _ _ Hm2), map_get_map_set_same.
    simpl isShown. cbv iota. cbn [snd].
    split; [rewrite timers_closeModal; reflexivity|].
    rewrite (closeModal_hides _ _ _ Hm3 Hdev).
    apply Z.ltb_ge in Hlt.
    symmetry. apply negb_false_iff, Z.leb_le. lia.
Qed.

Lemma setupModalEvents_timers st e modalId :
  exists l, timers (setupModalEvents st e modalId) = (timers st ++ l)%list.
Proof.
  unfold setupModalEvents.
  destruct (map_get (modals st) modalId) as [c|]; [|exists []; now rewrite app_nil_r].
  destruct (Z.ltb 0 (autoCloseAfter c) && negb (devMode c));
    [eexists; reflexivity|exists []; now rewrite app_nil_r].
Qed.

(** A time trigger whose value does not parse as a number arms its timer
    for the registration time itself: [NaN * 1000 + delay * 1000] is [NaN],
    which [setTimeout] treats as 0, so the extra delay is dropped too. *)
Theorem time_trigger_nan_fires_now st e modalId c :
  timers st = [] -> triggerType c = "time" -> parseInt (triggerValue c) = None ->
  isDeviceCompatible e c = true ->
  canShowModal st e modalId (frequency c) = true ->
  hd_error (timers (registerModal st e modalId c)) =
    Some (now_ms e, TriggerModal modalId).
Proof.
  intros Hts Ht Hp Hd Hc.
  unfold registerModal. rewrite Hd, Hc. simpl negb. cbv iota.
  destruct (setupModalEvents_timers
              (setupModalTrigger (set_modals st (map_set (modals st) modalId c))
                 e modalId c) e modalId) as [l Hl].
  rewrite Hl. unfold setupModalTrigger. rewrite Ht, Hp. simpl.
  rewrite Hts, Z.add_0_r. reflexivity.
Qed.

(** ** Concrete instances of the further properties *)

Definition ds_a : dataset :=
  [("modalId", "a"); ("modalTriggerType", ""); ("modalMobile", "false")].

Definition st_shown : state :=
  mkState [("a", with_shown cfg_session true (Some 1))] [] [] "hidden"
    [("modal:shown", "a")] [].

Definition st_two : state :=
  mkState [("a", cfg_session); ("b", cfg_session)]
    [("modal_a_session", "1"); ("modal_b_session", "1")] [] "" [] [].

Definition cfg_always : config :=
  mkConfig "page-load" "0" "always" 0 true true true 5 false false None.

Lemma parseModalConfig_defaults_witness :
  truthy (dataset_get ds_a "modalTriggerType") = false /\
  triggerType (parseModalConfig ds_a) = "page-load".
Proof.
  split; [reflexivity|].
  destruct (parseModalConfig_defaults ds_a) as (_ & _ & _ & _ & _ & _ & H & _).
  apply H. reflexivity.
Defined.

Lemma discoverModals_registers_element_ids_witness :
  is_registered (discoverModals empty_state env_desktop [ds_a]) "a" = true /\
  exists ds, In ds [ds_a] /\ has_trigger_type ds = true /\
             dataset_get ds "modalId" = Some "a" /\ "a" <> "".
Proof.
  assert (H : is_registered (discoverModals empty_state env_desktop [ds_a]) "a"
              = true) by (vm_compute; reflexivity).
  split; [exact H|].
  destruct (discoverModals_registers_element_ids _ _ _ _ H) as [H1|H1];
    [discriminate H1|exact H1].
Defined.

Lemma registerModal_replaces_witness :
  is_shown st_shown "a" = true /\
  map_get (modals (registerModal st_shown env_desktop "a" cfg_always)) "a" =
    Some cfg_always.
Proof.
  split; [reflexivity|].
  apply registerModal_replaces; vm_compute; reflexivity.
Defined.

Lemma enableDevMode_blocks_close_witness :
  hide (enableDevMode st_shown "a") "a" = enableDevMode st_shown "a".
Proof.
  destruct (enableDevMode_blocks_close st_shown env_desktop "a"
              (with_shown cfg_session true (Some 1)) eq_refl eq_refl)
    as (_ & H & _).
  exact H.
Defined.

Lemma disableDevMode_enableDevMode_witness :
  disableDevMode (enableDevMode st_session "a") "a" = st_session.
Proof.
  apply (proj1 (disableDevMode_enableDevMode st_session "a") cfg_session);
    reflexivity.
Defined.

Lemma resetFrequency_other_id_witness :
  canShowModal (resetFrequency st_two "a") env_desktop "b" "once-per-session" =
  canShowModal st_two env_desktop "b" "once-per-session".
Proof. apply resetFrequency_other_id. discriminate. Defined.

Lemma showModal_other_id_witness :
  canShowModal (showModal st_two env_desktop "a") env_desktop "b" "always" =
  canShowModal st_two env_desktop "b" "always".
Proof.
  apply (proj2 (showModal_other_id st_two env_desktop env_desktop "a" "b"
                  "always" ltac:(discriminate))).
Defined.

Lemma forceClose_is_closeModal_outside_devMode_witness :
  forceClose st_shown "a" = closeModal st_shown "a".
Proof. apply forceClose_is_closeModal_outside_devMode. simpl. discriminate. Defined.

Lemma triggerModal_repeat_noop_witness :
  is_shown (triggerModal st_session env_desktop "a") "a" = true /\
  triggerModal (triggerModal st_session env_desktop "a") env_desktop "a" =
  triggerModal st_session env_desktop "a".
Proof.
  assert (H : is_shown (triggerModal st_session env_desktop "a") "a" = true)
    by (vm_compute; reflexivity).
  split; [exact H|]. apply triggerModal_repeat_noop. exact H.
Defined.

Lemma getStatus_after_trigger_witness :
  getStatus (triggerModal st_session env_desktop "a") env_desktop "a" =
  mkStatus true true (Some (now_ms env_desktop)) false false
    (Some "manual") (Some "once-per-session").
Proof.
  apply (getStatus_after_trigger st_session env_desktop env_desktop "a"
           cfg_session); vm_compute; reflexivity.
Defined.

Lemma cleanupOldData_keeps_witness :
  getItem (session (cleanupOldData
                      (set_session empty_state [("theme_x", "1")]) env_desktop))
    "theme_x" = Some "1".
Proof.
  destruct (cleanupOldData_keeps (set_session empty_state [("theme_x", "1")])
              env_desktop "theme_x") as (_ & _ & H).
  apply H. left. reflexivity.
Defined.

Lemma getWeekNumber_monotone_bounded_witness :
  let e := mkEnv (1672531200000 + 8 * day_ms) 1672531200000 "Mon Jan 09 2023"
             1200 in
  1 <= getWeekNumber e <= 53.
Proof.
  cbv zeta.
  destruct (getWeekNumber_monotone_bounded
              (mkEnv (1672531200000 + 8 * day_ms) 1672531200000
                 "Mon Jan 09 2023" 1200)
              env_desktop) as (_ & _ & H).
  apply H. cbn [now_ms year_start_ms]. unfold day_ms. lia.
Defined.

Lemma pageLoad_autoClose_witness :
  timers (snd (run_timers 2 env_desktop
                 (registerModal empty_state env_desktop "a" cfg_always))) = [] /\
  is_shown (snd (run_timers 2 env_desktop
                   (registerModal empty_state env_desktop "a" cfg_always))) "a"
    = false.
Proof.
  apply (pageLoad_autoClose empty_state env_desktop "a" cfg_always);
    vm_compute; reflexivity || discriminate || (intros; discriminate).
Defined.

Lemma time_trigger_nan_fires_now_witness :
  hd_error (timers (registerModal empty_state env_desktop "a"
                      (mkConfig "time" "soon" "always" 3 true true true 0
                         false false None))) =
    Some (now_ms env_desktop, TriggerModal "a").
Proof. apply time_trigger_nan_fires_now; vm_compute; reflexivity. Defined.

Lemma show_resetFrequency_canShowModal_witness :
  let st := mkState
              [("a", mkConfig "manual" "0" "once-per-session" 0 true true true
                       0 false false None)]
              [] [("modal_a_day", "Tue Nov 14 2023")] "" [] [] in
  getWeekNumber env_desktop <> 0 /\
  canShowModal (resetFrequency (show st env_desktop "a") "a") env_desktop "a"
    "once-per-day" = true.
Proof.
  cbv zeta.
  assert (Hw : getWeekNumber env_desktop <> 0) by (vm_compute; discriminate).
  split; [exact Hw|].
  exact (proj1 (show_resetFrequency_canShowModal _ env_desktop env_desktop "a"
                  "once-per-day" Hw)).
Defined.
